(** * Attendance tracker: the store (database.py) and the application (app.py)

    A shallow embedding of the two-table SQLite store and of the Flask
    handlers that drive it, followed by the properties the specification
    states about them.

    Conventions of the embedding.
    - A table is the list of its rows in rowid order together with the
      counter SQLite keeps in [sqlite_sequence] for an AUTOINCREMENT key.
      A table that was never created is [None].
    - An SQL statement is a computation in the monad [sql]: it either
      fails with the exception the [sqlite3] module raises, or returns a
      value and the working copy of the database held by the connection.
      [conn.commit()] makes the working copy the stored one; when a Python
      function leaves through an [except] clause nothing was committed and
      the stored database is the one it started from.
    - INTEGER columns are integers [Z], TEXT columns are byte strings
      compared with SQLite's default BINARY collation (byte by byte), which
      is [String.compare].  Foreign keys are not enforced: the connection
      never turns the pragma on.
    - Arguments have the types the routes pass, with values the [sqlite3]
      binding accepts: a participant id is an [int] (within the engine's
      INTEGER range), a name, a date and a status are [str], an email is
      a [str] or [None].  Failures of the engine itself (a full disk, a
      locked file) are outside the model. *)

From stdpp Require Import gmap strings.
From Stdlib Require Import ZArith String Ascii Bool List Permutation Sorted Lia.
Import ListNotations.

#[local] Open Scope string_scope.
#[local] Open Scope Z_scope.
#[local] Open Scope list_scope.

(** ** Python helpers *)

(** Truth value of a [str]-or-[None]: [None] and the empty string are false. *)
Definition truthy (v : option string) : bool :=
  match v with
  | Some s => negb (s =? "")%string
  | None => false
  end.

(** [v == s] for a [str]-or-[None] [v]. *)
Definition py_eq (v : option string) (s : string) : bool :=
  match v with
  | Some x => (x =? s)%string
  | None => false
  end.

(** [key.startswith(p)] *)
Definition startswith (p key : string) : bool := String.prefix p key.

(** [s.split(sep)] for a one-character separator. *)
Fixpoint split (sep : ascii) (s : string) : list string :=
  match s with
  | EmptyString => [EmptyString]
  | String c r =>
      if Ascii.eqb c sep then EmptyString :: split sep r
      else match split sep r with
           | h :: t => String c h :: t
           | [] => [String c EmptyString]
           end
  end.

(** [ORDER BY key]: a stable insertion sort on a TEXT key. *)
Fixpoint insert_by {A : Type} (key : A -> string) (x : A) (l : list A) : list A :=
  match l with
  | [] => [x]
  | y :: l' => if String.leb (key x) (key y) then x :: l else y :: insert_by key x l'
  end.

Definition order_by {A : Type} (key : A -> string) (l : list A) : list A :=
  fold_right (insert_by key) [] l.

(** ** database.py *)

Module Database.

(** A row of [participants]. *)
Record participant := mk_participant
  { p_id : Z; p_name : string; p_email : option string }.

(** A row of [attendance_records]. *)
Record attendance_record := mk_attendance_record
  { ar_id : Z; ar_participant_id : Z; ar_session_date : string; ar_status : string }.

Record table (row : Type) := mk_table
  { t_rows : list row;     (* rows in rowid order *)
    t_seq : Z }.           (* sqlite_sequence.seq: largest rowid ever used *)
Arguments mk_table {row} _ _.
Arguments t_rows {row} _.
Arguments t_seq {row} _.

Definition empty_table {row : Type} : table row := mk_table [] 0.

(** The database file. *)
Record db := mk_db
  { participants : option (table participant);
    attendance_records : option (table attendance_record) }.

(** A file that [sqlite3.connect] has just created. *)
Definition empty_db : db := mk_db None None.

(** Exceptions of the [sqlite3] module. *)
Inductive sql_error := IntegrityError | OperationalError.

Inductive result (A : Type) :=
| Ok (a : A) (conn : db)
| Err (e : sql_error).
Arguments Ok {A} _ _.
Arguments Err {A} _.

(** A statement run on a connection. *)
Definition sql (A : Type) : Type := db -> result A.

Definition ret {A : Type} (a : A) : sql A := fun conn => Ok a conn.

Definition bind {A B : Type} (m : sql A) (k : A -> sql B) : sql B :=
  fun conn =>
    match m conn with
    | Ok a conn' => k a conn'
    | Err e => Err e
    end.

Notation "'let*' x := m 'in' k" := (bind m (fun x => k))
  (at level 10, x name, m at level 100, k at level 200).
Notation "m >> k" := (bind m (fun _ => k))
  (at level 100, right associativity).

(** [CHECK(status IN ('Present', 'Absent'))] *)
Definition status_check (status : string) : bool :=
  (status =? "Present")%string || (status =? "Absent")%string.

(** [CREATE TABLE IF NOT EXISTS participants (...)] *)
Definition create_participants : sql unit := fun conn =>
  match participants conn with
  | Some _ => Ok tt conn
  | None => Ok tt (mk_db (Some empty_table) (attendance_records conn))
  end.

(** [CREATE TABLE IF NOT EXISTS attendance_records (...)] *)
Definition create_attendance_records : sql unit := fun conn =>
  match attendance_records conn with
  | Some _ => Ok tt conn
  | None => Ok tt (mk_db (participants conn) (Some empty_table))
  end.

(** [init_db()]: both statements, then [conn.commit()]. *)
Definition init_db (st : db) : db :=
  match (create_participants >> create_attendance_records) st with
  | Ok _ conn => conn
  | Err _ => st
  end.

End Database.
Import Database.

(** ** app.py: the statements *)

(** [INSERT INTO participants (name, email) VALUES (?, ?)]; the value is
    [cursor.lastrowid].  [name] is UNIQUE; the key is AUTOINCREMENT. *)
Definition insert_participant (name : string) (email : option string) : sql Z :=
  fun conn =>
    match participants conn with
    | None => Err OperationalError
    | Some t =>
        if existsb (fun p => (p_name p =? name)%string) (t_rows t)
        then Err IntegrityError
        else
          let id := t_seq t + 1 in
          Ok id (mk_db (Some (mk_table (t_rows t ++ [mk_participant id name email]) id))
                       (attendance_records conn))
    end.

(** [SELECT id, name, email FROM participants ORDER BY name], [fetchall()] *)
Definition select_participants : sql (list participant) := fun conn =>
  match participants conn with
  | None => Err OperationalError
  | Some t => Ok (order_by p_name (t_rows t)) conn
  end.

(** [SELECT id FROM attendance_records WHERE participant_id = ? AND
    session_date = ?], [fetchone()] *)
Definition select_attendance_id (participant_id : Z) (session_date : string)
  : sql (option Z) := fun conn =>
  match attendance_records conn with
  | None => Err OperationalError
  | Some t =>
      Ok (option_map ar_id
            (find (fun r => (ar_participant_id r =? participant_id)
                            && (ar_session_date r =? session_date)%string)
                  (t_rows t)))
         conn
  end.

Definition set_status (status : string) (r : attendance_record) : attendance_record :=
  mk_attendance_record (ar_id r) (ar_participant_id r) (ar_session_date r) status.

(** [SET status = ? WHERE id = ?] on one row. *)
Definition update_row (status : string) (id : Z) (r : attendance_record) : attendance_record :=
  if ar_id r =? id then set_status status r else r.

(** [UPDATE attendance_records SET status = ? WHERE id = ?] *)
Definition update_attendance_status (status : string) (id : Z) : sql unit :=
  fun conn =>
    match attendance_records conn with
    | None => Err OperationalError
    | Some t =>
        if existsb (fun r => ar_id r =? id) (t_rows t) && negb (status_check status)
        then Err IntegrityError
        else
          Ok tt (mk_db (participants conn)
                       (Some (mk_table (map (update_row status id) (t_rows t)) (t_seq t))))
    end.

(** [INSERT INTO attendance_records (participant_id, session_date, status)
    VALUES (?, ?, ?)] *)
Definition insert_attendance (participant_id : Z) (session_date status : string)
  : sql Z := fun conn =>
  match attendance_records conn with
  | None => Err OperationalError
  | Some t =>
      if negb (status_check status) then Err IntegrityError
      else
        let id := t_seq t + 1 in
        Ok id (mk_db (participants conn)
                     (Some (mk_table
                              (t_rows t ++ [mk_attendance_record id participant_id session_date status])
                              id)))
  end.


(** A row of the report: [participant_name], [status], [session_date]. *)
Record session_row := mk_session_row
  { sr_participant_name : string; sr_status : string; sr_session_date : string }.

(** [SELECT p.name AS participant_name, ar.status, ar.session_date
     FROM attendance_records ar JOIN participants p ON ar.participant_id = p.id
     WHERE ar.session_date = ? ORDER BY p.name], [fetchall()] *)
Definition select_attendance_join (session_date : string) : sql (list session_row) :=
  fun conn =>
    match attendance_records conn, participants conn with
    | Some ar, Some ps =>
        Ok (order_by sr_participant_name
              (flat_map
                 (fun a =>
                    flat_map
                      (fun p =>
                         if (ar_participant_id a =? p_id p)
                            && (ar_session_date a =? session_date)%string
                         then [mk_session_row (p_name p) (ar_status a) (ar_session_date a)]
                         else [])
                      (t_rows ps))
                 (t_rows ar)))
           conn
    | _, _ => Err OperationalError
    end.

(** ** app.py: the data-access functions *)

(** [add_participant(name, email=None)]: the new id, or [None] when the
    insert raised. *)
Definition add_participant (name : string) (email : option string) (st : db)
  : option Z * db :=
  match insert_participant name email st with
  | Ok participant_id conn => (Some participant_id, conn)
  | Err IntegrityError => (None, st)
  | Err _ => (None, st)
  end.

(** [get_all_participants()] *)
Definition get_all_participants (st : db) : list participant :=
  match select_participants st with
  | Ok participants _ => participants
  | Err _ => []
  end.

(** [record_attendance(participant_id, session_date, status)] *)
Definition record_attendance (participant_id : Z) (session_date status : string)
  (st : db) : bool * db :=
  let body :=
    let* record := select_attendance_id participant_id session_date in
    match record with
    | Some id => update_attendance_status status id
    | None => insert_attendance participant_id session_date status >> ret tt
    end in
  match body st with
  | Ok _ conn => (true, conn)
  | Err _ => (false, st)
  end.

(** [get_attendance_for_session(session_date)] *)
Definition get_attendance_for_session (session_date : string) (st : db)
  : list session_row :=
  match select_attendance_join session_date st with
  | Ok records _ => records
  | Err _ => []
  end.

(** ** app.py: the routes *)

Inductive http_method := GET | POST.

(** A request: its method, [request.form] and [request.args].  Both are
    multi-dicts, kept as the field/value pairs in the order received. *)
Record request := mk_request
  { method : http_method;
    form : list (string * string);
    args : list (string * string) }.

(** [d.get(key)]: the first value of [key], [None] when there is none. *)
Fixpoint multidict_get (key : string) (d : list (string * string)) : option string :=
  match d with
  | [] => None
  | (k, v) :: d' => if (k =? key)%string then Some v else multidict_get key d'
  end.

(** [d.items()]: every key once with its first value, in the order the
    keys first occur. *)
Fixpoint multidict_items (d : list (string * string)) : list (string * string) :=
  match d with
  | [] => []
  | (k, v) :: d' =>
      (k, v) :: filter (fun kv => negb (fst kv =? k)%string) (multidict_items d')
  end.

(** The view functions [url_for] can name. *)
Inductive endpoint := ep_setup_page | ep_mark_attendance_page | ep_view_attendance_page.

(** What a view function returns: [redirect(url_for(endpoint, **values))]
    or [render_template(template, **context)]. *)
Inductive response :=
| redirect (target : endpoint) (values : list (string * string))
| render_setup (participants : list participant) (session : gmap string string)
| render_mark_attendance (participants : list participant) (session_date : string)
| render_view_attendance (attendance_records : list session_row)
                         (session_date : option string).

Section Routes.

(** [int(s)] on a string: the integer it denotes, [None] where Python
    raises [ValueError]. *)
Variable int : string -> option Z.

(** The route [/], [setup_page()]. *)
Definition setup_page (req : request) (session : gmap string string) (st : db)
  : response * gmap string string * db :=
  match method req with
  | POST =>
      let action := multidict_get "action" (form req) in
      let session_date_form := multidict_get "session_date" (form req) in
      let session :=
        match session_date_form with
        | Some d => if truthy (Some d) then <["session_date" := d]> session else session
        | None => session
        end in
      if py_eq action "add_participant" then
        let st :=
          match multidict_get "participant_name" (form req) with
          | Some participant_name =>
              if truthy (Some participant_name)
              then snd (add_participant participant_name None st)
              else st
          | None => st
          end in
        (redirect ep_setup_page [], session, st)
      else if py_eq action "proceed_to_attendance" then
        if truthy (session !! "session_date")
        then (redirect ep_mark_attendance_page [], session, st)
        else (redirect ep_setup_page [], session, st)
      else (render_setup (get_all_participants st) session, session, st)
  | GET => (render_setup (get_all_participants st) session, session, st)
  end.

(** One turn of the loop over [request.form.items()]. *)
Definition mark_status (session_date : string) (st : db) (item : string * string) : db :=
  let (key, value) := item in
  if startswith "status_" key then
    let participant_id := nth 1 (split "_" key) "" in
    match int participant_id with
    | Some p_id_int => snd (record_attendance p_id_int session_date value st)
    | None => st
    end
  else st.

(** The route [/attendance], [mark_attendance_page()]. *)
Definition mark_attendance_page (req : request) (session : gmap string string) (st : db)
  : response * gmap string string * db :=
  match session !! "session_date" with
  | None => (redirect ep_setup_page [], session, st)
  | Some session_date =>
      if negb (truthy (Some session_date)) then (redirect ep_setup_page [], session, st)
      else
        match method req with
        | POST =>
            match multidict_get "session_date" (form req) with
            | None => (redirect ep_setup_page [], session, st)
            | Some session_date =>
                if negb (truthy (Some session_date))
                then (redirect ep_setup_page [], session, st)
                else
                  let st := fold_left (mark_status session_date)
                                      (multidict_items (form req)) st in
                  (redirect ep_view_attendance_page
                            [("session_date_view", session_date)],
                   session, st)
            end
        | GET =>
            match get_all_participants st with
            | [] => (redirect ep_setup_page [], session, st)
            | participants =>
                (render_mark_attendance participants session_date, session, st)
            end
        end
  end.

(** The route [/view], [view_attendance_page()]. *)
Definition view_attendance_page (req : request) (session : gmap string string) (st : db)
  : response * gmap string string * db :=
  let session_date_to_view := multidict_get "session_date_view" (args req) in
  let attendance_records :=
    match session_date_to_view with
    | Some d => if truthy (Some d) then get_attendance_for_session d st else []
    | None => []
    end in
  (render_view_attendance attendance_records session_date_to_view, session, st).

End Routes.

(** The route [/init_db_route], [initialize_database_route()]: the message
    of the JSON body, the status code, and the store [init_db()] leaves. *)
Definition initialize_database_route (st : db) : (string * Z) * db :=
  (("Database initialized successfully", 200), init_db st).

(** A decimal reading of [int] for ASCII input: an optional sign and one
    or more digits. *)
Fixpoint digits_value (acc : Z) (s : string) : option Z :=
  match s with
  | EmptyString => Some acc
  | String c r =>
      let n := Z.of_nat (nat_of_ascii c) in
      if (48 <=? n) && (n <=? 57) then digits_value (10 * acc + (n - 48)) r else None
  end.

Definition ascii_int (s : string) : option Z :=
  match s with
  | EmptyString => None
  | String "-" (String _ _ as r) => option_map Z.opp (digits_value 0 r)
  | String "+" (String _ _ as r) => digits_value 0 r
  | _ => digits_value 0 s
  end.

(** ** Sequences of repository calls *)

Inductive op :=
| OpInit
| OpAdd (name : string) (email : option string)
| OpListAll
| OpRecord (participant_id : Z) (session_date status : string)
| OpForSession (session_date : string).

Definition step (st : db) (o : op) : db :=
  match o with
  | OpInit => init_db st
  | OpAdd name email => snd (add_participant name email st)
  | OpListAll => st
  | OpRecord p d s => snd (record_attendance p d s st)
  | OpForSession _ => st
  end.

Definition run (ops : list op) (st : db) : db := fold_left step ops st.

(** [add_participant] for each name and email of a list, in order: the
    values returned and the final store. *)
Fixpoint add_all (l : list (string * option string)) (st : db)
  : list (option Z) * db :=
  match l with
  | [] => ([], st)
  | (name, email) :: l' =>
      let (id, st1) := add_participant name email st in
      let (ids, st2) := add_all l' st1 in
      (id :: ids, st2)
  end.

(** ** Vocabulary of the properties *)

(** The rows of a table; a table that does not exist has none. *)
Definition participant_rows (st : db) : list participant :=
  match participants st with
  | Some t => t_rows t
  | None => []
  end.

Definition attendance_rows (st : db) : list attendance_record :=
  match attendance_records st with
  | Some t => t_rows t
  | None => []
  end.

(** The stores the application can be in: the initialized empty store and
    whatever repository calls make of it. *)
Inductive reachable : db -> Prop :=
| reachable_init : reachable (init_db empty_db)
| reachable_step st o : reachable st -> reachable (step st o).

(** The (participant, date) pair an attendance record is about. *)
Definition pair_of (r : attendance_record) : Z * string :=
  (ar_participant_id r, ar_session_date r).

Definition about (participant_id : Z) (session_date : string)
  (r : attendance_record) : bool :=
  (ar_participant_id r =? participant_id) && (ar_session_date r =? session_date)%string.


(** Order of two rows by a TEXT key. *)
Definition key_le {A : Type} (key : A -> string) (x y : A) : Prop :=
  String.leb (key x) (key y) = true.

(** What the schema holds of every table it declares: the primary key is
    unique, positive and at most the recorded sequence value; participant
    names are unique; every status passes the check. *)
Definition participants_ok (t : table participant) : Prop :=
  NoDup (map p_id (t_rows t))
  /\ NoDup (map p_name (t_rows t))
  /\ Forall (fun p => 0 < p_id p <= t_seq t) (t_rows t)
  /\ 0 <= t_seq t.

Definition attendance_ok (t : table attendance_record) : Prop :=
  NoDup (map ar_id (t_rows t))
  /\ Forall (fun r => 0 < ar_id r <= t_seq t) (t_rows t)
  /\ Forall (fun r => status_check (ar_status r) = true) (t_rows t)
  /\ 0 <= t_seq t.

Definition db_ok (st : db) : Prop :=
  (exists t, participants st = Some t /\ participants_ok t)
  /\ (exists t, attendance_records st = Some t /\ attendance_ok t).

(** At most one attendance record for each (participant, date) pair. *)
Definition one_record_per_pair (st : db) : Prop :=
  NoDup (map pair_of (attendance_rows st)).

(** The name of the participant an id refers to. *)
Definition name_of (ps : list participant) (id : Z) : option string :=
  option_map p_name (find (fun p => p_id p =? id) ps).

(** The report for a date as the specification words it: the attendance
    records of that date whose participant exists, each with that
    participant's name. *)
Definition for_session_spec (session_date : string) (st : db) : list session_row :=
  flat_map
    (fun a =>
       match name_of (participant_rows st) (ar_participant_id a) with
       | Some name => [mk_session_row name (ar_status a) (ar_session_date a)]
       | None => []
       end)
    (filter (fun a => (ar_session_date a =? session_date)%string) (attendance_rows st)).

(** A form field the marking loop acts on: its name starts with
    [status_] and [int] reads the part after it. *)
Definition status_field (int : string -> option Z) (item : string * string) : bool :=
  startswith "status_" (fst item)
  && match int (nth 1 (split "_" (fst item)) "") with
     | Some _ => true
     | None => false
     end.

(** What identifies an attendance record for good: its rowid, its
    participant and its date. *)
Definition record_key (r : attendance_record) : Z * Z * string :=
  (ar_id r, ar_participant_id r, ar_session_date r).

(** The three components of what a view function leaves behind. *)
Definition response_of (out : response * gmap string string * db) : response :=
  fst (fst out).
Definition session_of (out : response * gmap string string * db) : gmap string string :=
  snd (fst out).
Definition store_of (out : response * gmap string string * db) : db :=
  snd out.

(** ** Ordering *)

Lemma ascii_compare_N (a b : ascii) :
  Ascii.compare a b = N.compare (N_of_ascii a) (N_of_ascii b).
Proof. reflexivity. Qed.

Lemma string_compare_refl (s : string) : String.compare s s = Eq.
Proof.
  induction s as [|c s IH]; simpl; [reflexivity|].
  rewrite ascii_compare_N, N.compare_refl. exact IH.
Qed.

Lemma string_compare_eq (s1 s2 : string) : String.compare s1 s2 = Eq <-> s1 = s2.
Proof.
  split; [apply String.compare_eq_iff|].
  intros ->. apply string_compare_refl.
Qed.

Lemma string_compare_lt_trans (s1 : string) :
  forall s2 s3, String.compare s1 s2 = Lt -> String.compare s2 s3 = Lt ->
                String.compare s1 s3 = Lt.
Proof.
  induction s1 as [|c1 s1 IH]; intros [|c2 s2] [|c3 s3]; simpl; try congruence.
  rewrite !ascii_compare_N.
  destruct (N.compare_spec (N_of_ascii c1) (N_of_ascii c2)) as [E12|L12|G12];
    destruct (N.compare_spec (N_of_ascii c2) (N_of_ascii c3)) as [E23|L23|G23];
    try congruence; intros H12 H23.
  - rewrite E12, E23, N.compare_refl. eauto.
  - rewrite E12. apply N.compare_lt_iff in L23. now rewrite L23.
  - rewrite <- E23. apply N.compare_lt_iff in L12. now rewrite L12.
  - assert (L13 : (N_of_ascii c1 < N_of_ascii c3)%N) by lia.
    apply N.compare_lt_iff in L13. now rewrite L13.
Qed.

Lemma string_leb_refl (s : string) : String.leb s s = true.
Proof. unfold String.leb. now rewrite string_compare_refl. Qed.

Lemma string_leb_trans (s1 s2 s3 : string) :
  String.leb s1 s2 = true -> String.leb s2 s3 = true -> String.leb s1 s3 = true.
Proof.
  unfold String.leb.
  destruct (String.compare s1 s2) eqn:E12; try discriminate;
    destruct (String.compare s2 s3) eqn:E23; try discriminate; intros _ _.
  - apply string_compare_eq in E12, E23. subst. now rewrite string_compare_refl.
  - apply string_compare_eq in E12. subst. now rewrite E23.
  - apply string_compare_eq in E23. subst. now rewrite E12.
  - now rewrite (string_compare_lt_trans _ _ _ E12 E23).
Qed.

Section OrderBy.

Context {A : Type} (key : A -> string).

Lemma key_le_trans (x y z : A) : key_le key x y -> key_le key y z -> key_le key x z.
Proof. apply string_leb_trans. Qed.

Lemma insert_by_perm (x : A) (l : list A) : Permutation (insert_by key x l) (x :: l).
Proof.
  induction l as [|y l IH]; simpl; [reflexivity|].
  destruct (String.leb (key x) (key y)); [reflexivity|].
  rewrite IH. apply perm_swap.
Qed.

Lemma order_by_perm (l : list A) : Permutation (order_by key l) l.
Proof.
  induction l as [|x l IH]; simpl; [reflexivity|].
  rewrite insert_by_perm. now constructor.
Qed.

Lemma insert_by_sorted (x : A) (l : list A) :
  StronglySorted (key_le key) l -> StronglySorted (key_le key) (insert_by key x l).
Proof.
  induction 1 as [|y l Hl IH Hy]; simpl.
  - repeat constructor.
  - destruct (String.leb (key x) (key y)) eqn:E.
    + constructor; [now constructor|].
      constructor; [exact E|].
      eapply Forall_impl; [|exact Hy]. intros z Hz.
      eapply key_le_trans; [exact E|exact Hz].
    + constructor; [exact IH|].
      eapply Permutation_Forall; [symmetry; apply insert_by_perm|].
      constructor; [|exact Hy].
      destruct (String.leb_total (key x) (key y)) as [H|H]; [congruence|exact H].
Qed.

Lemma order_by_sorted (l : list A) : StronglySorted (key_le key) (order_by key l).
Proof.
  induction l as [|x l IH]; simpl; [constructor|].
  now apply insert_by_sorted.
Qed.

Lemma order_by_nil (l : list A) : order_by key l = [] -> l = [].
Proof.
  intros H. apply Permutation_nil. rewrite <- H. apply order_by_perm.
Qed.

End OrderBy.

(** ** The data-access functions, case by case *)

Lemma NoDup_snoc {A : Type} (l : list A) (x : A) :
  NoDup l -> ~ In x l -> NoDup (l ++ [x]).
Proof.
  induction 1 as [|y l Hy Hl IH]; simpl; intros Hx.
  - constructor; [tauto|constructor].
  - constructor.
    + rewrite in_app_iff; simpl. intros [H|[H|[]]]; [tauto|]. subst. tauto.
    + apply IH. tauto.
Qed.

Lemma existsb_name_In (name : string) (l : list participant) :
  existsb (fun p => (p_name p =? name)%string) l = true <-> In name (map p_name l).
Proof.
  rewrite existsb_exists, in_map_iff. split.
  - intros (p & Hp & E). apply String.eqb_eq in E. eauto.
  - intros (p & E & Hp). exists p. split; [exact Hp|]. now apply String.eqb_eq.
Qed.

(** [add_participant] unfolded: no table, a taken name, a free name. *)
Lemma add_participant_eq (name : string) (email : option string) (st : db) :
  add_participant name email st =
  match participants st with
  | None => (None, st)
  | Some t =>
      if existsb (fun p => (p_name p =? name)%string) (t_rows t) then (None, st)
      else (Some (t_seq t + 1),
            mk_db (Some (mk_table (t_rows t ++ [mk_participant (t_seq t + 1) name email])
                                  (t_seq t + 1)))
                  (attendance_records st))
  end.
Proof.
  unfold add_participant, insert_participant.
  destruct (participants st) as [t|]; [|reflexivity].
  now destruct (existsb _ (t_rows t)).
Qed.

(** [record_attendance] unfolded: no table, a rejected status, an update,
    an insert. *)
Lemma record_attendance_eq (p : Z) (d s : string) (st : db) :
  record_attendance p d s st =
  match attendance_records st with
  | None => (false, st)
  | Some t =>
      if status_check s then
        match find (about p d) (t_rows t) with
        | Some r =>
            (true, mk_db (participants st)
                         (Some (mk_table (map (update_row s (ar_id r)) (t_rows t)) (t_seq t))))
        | None =>
            (true, mk_db (participants st)
                         (Some (mk_table (t_rows t ++ [mk_attendance_record (t_seq t + 1) p d s])
                                         (t_seq t + 1))))
        end
      else (false, st)
  end.
Proof.
  unfold record_attendance, bind, select_attendance_id, update_attendance_status,
    insert_attendance, ret.
  destruct (attendance_records st) as [t|] eqn:Et; [|reflexivity].
  fold (about p d).
  destruct (find (about p d) (t_rows t)) as [r|] eqn:Ef; simpl; rewrite Et.
  - apply find_some in Ef. destruct Ef as [Hin _].
    assert (Hex : existsb (fun r0 => ar_id r0 =? ar_id r) (t_rows t) = true).
    { apply existsb_exists. exists r. split; [exact Hin|apply Z.eqb_refl]. }
    rewrite Hex. now destruct (status_check s).
  - now destruct (status_check s).
Qed.

Lemma about_iff (p : Z) (d : string) (r : attendance_record) :
  about p d r = true <-> pair_of r = (p, d).
Proof.
  unfold about, pair_of. rewrite andb_true_iff, Z.eqb_eq, String.eqb_eq.
  split; [intros [-> ->]; reflexivity|intros [= -> ->]; tauto].
Qed.

Lemma about_update_row (p : Z) (d s : string) (id : Z) (r : attendance_record) :
  about p d (update_row s id r) = about p d r.
Proof. unfold update_row. now destruct (ar_id r =? id). Qed.

Lemma pair_of_update_row (s : string) (id : Z) (l : list attendance_record) :
  map pair_of (map (update_row s id) l) = map pair_of l.
Proof.
  rewrite map_map. apply map_ext. intros r. unfold update_row.
  now destruct (ar_id r =? id).
Qed.

Lemma ar_id_update_row (s : string) (id : Z) (l : list attendance_record) :
  map ar_id (map (update_row s id) l) = map ar_id l.
Proof.
  rewrite map_map. apply map_ext. intros r. unfold update_row.
  now destruct (ar_id r =? id).
Qed.

Lemma find_about_none (p : Z) (d : string) (l : list attendance_record) :
  find (about p d) l = None -> ~ In (p, d) (map pair_of l).
Proof.
  intros Hf Hin. apply in_map_iff in Hin. destruct Hin as (r & E & Hr).
  apply (find_none _ _ Hf) in Hr. apply about_iff in E. congruence.
Qed.




(** ** What the store keeps true *)

Lemma init_db_eq (st : db) :
  init_db st =
  mk_db (Some (match participants st with Some t => t | None => empty_table end))
        (Some (match attendance_records st with Some t => t | None => empty_table end)).
Proof.
  unfold init_db, bind, create_participants, create_attendance_records.
  destruct st as [[ps|] [ar|]]; reflexivity.
Qed.

Lemma empty_participants_ok : participants_ok empty_table.
Proof. repeat split; simpl; try constructor; lia. Qed.

Lemma empty_attendance_ok : attendance_ok empty_table.
Proof. repeat split; simpl; try constructor; lia. Qed.

Lemma init_db_empty_ok : db_ok (init_db empty_db).
Proof.
  split; eexists; (split; [reflexivity|]);
    [apply empty_participants_ok|apply empty_attendance_ok].
Qed.

Lemma init_db_ok (st : db) : db_ok st -> init_db st = st.
Proof.
  intros [(ps & Ep & _) (ar & Ea & _)]. rewrite init_db_eq, Ep, Ea.
  destruct st; simpl in *; congruence.
Qed.

Lemma add_participant_ok (name : string) (email : option string) (st : db) :
  db_ok st -> db_ok (snd (add_participant name email st)).
Proof.
  intros [(ps & Ep & Hid & Hname & Hrange & Hseq) Har]. rewrite add_participant_eq, Ep.
  destruct (existsb _ (t_rows ps)) eqn:Ex; simpl.
  - split; [exists ps; repeat split; assumption|exact Har].
  - split; [|exact Har]. eexists; split; [reflexivity|]. repeat split; simpl.
    + rewrite map_app. apply NoDup_snoc; [exact Hid|]. simpl.
      intros Hin. apply in_map_iff in Hin. destruct Hin as (q & E & Hq).
      rewrite Forall_forall in Hrange. apply Hrange in Hq. lia.
    + rewrite map_app. apply NoDup_snoc; [exact Hname|]. simpl.
      intros Hin. apply existsb_name_In in Hin. congruence.
    + apply Forall_app. split.
      * eapply Forall_impl; [|exact Hrange]. simpl. intros; lia.
      * repeat constructor; simpl; lia.
    + lia.
Qed.

Lemma record_attendance_ok (p : Z) (d s : string) (st : db) :
  db_ok st -> db_ok (snd (record_attendance p d s st)).
Proof.
  intros Hok. pose proof Hok as [Hps (ar & Ea & Hid & Hrange & Hstatus & Hseq)].
  rewrite record_attendance_eq, Ea.
  destruct (status_check s) eqn:Es; [|exact Hok].
  destruct (find (about p d) (t_rows ar)) as [r|] eqn:Ef; simpl.
  - split; [exact Hps|]. eexists; split; [reflexivity|]. repeat split; simpl.
    + now rewrite ar_id_update_row.
    + apply Forall_map. eapply Forall_impl; [|exact Hrange]. intros x Hx.
      unfold update_row. now destruct (ar_id x =? ar_id r).
    + apply Forall_map. eapply Forall_impl; [|exact Hstatus]. intros x Hx.
      unfold update_row. now destruct (ar_id x =? ar_id r).
    + exact Hseq.
  - split; [exact Hps|]. eexists; split; [reflexivity|]. repeat split; simpl.
    + rewrite map_app. apply NoDup_snoc; [exact Hid|]. simpl.
      intros Hin. apply in_map_iff in Hin. destruct Hin as (q & E & Hq).
      rewrite Forall_forall in Hrange. apply Hrange in Hq. lia.
    + apply Forall_app. split.
      * eapply Forall_impl; [|exact Hrange]. simpl. intros; lia.
      * repeat constructor; simpl; lia.
    + apply Forall_app. split; [exact Hstatus|]. repeat constructor. exact Es.
    + lia.
Qed.

Lemma step_ok (st : db) (o : op) : db_ok st -> db_ok (step st o).
Proof.
  destruct o; simpl; intros Hok; try exact Hok.
  - now rewrite init_db_ok.
  - now apply add_participant_ok.
  - now apply record_attendance_ok.
Qed.

Lemma reachable_ok (st : db) : reachable st -> db_ok st.
Proof.
  induction 1 as [|st o _ IH]; [apply init_db_empty_ok|now apply step_ok].
Qed.

Lemma reachable_run (ops : list op) (st : db) : reachable st -> reachable (run ops st).
Proof.
  revert st. induction ops as [|o ops IH]; simpl; intros st H; [exact H|].
  apply IH. now constructor.
Qed.

(** The attendance table after [record_attendance]. *)
Lemma record_attendance_one_per_pair (p : Z) (d s : string) (st : db) :
  one_record_per_pair st -> one_record_per_pair (snd (record_attendance p d s st)).
Proof.
  unfold one_record_per_pair, attendance_rows. rewrite record_attendance_eq.
  destruct (attendance_records st) as [t|] eqn:Et; simpl; [|now rewrite Et].
  destruct (status_check s); simpl; [|now rewrite Et].
  destruct (find (about p d) (t_rows t)) as [r|] eqn:Ef; simpl; intros Hnd.
  - now rewrite pair_of_update_row.
  - rewrite map_app. apply NoDup_snoc; [exact Hnd|]. now apply find_about_none.
Qed.

Lemma add_participant_attendance (name : string) (email : option string) (st : db) :
  attendance_records (snd (add_participant name email st)) = attendance_records st.
Proof.
  rewrite add_participant_eq. destruct (participants st) as [t|]; [|reflexivity].
  now destruct (existsb _ (t_rows t)).
Qed.

Lemma step_one_per_pair (st : db) (o : op) :
  db_ok st -> one_record_per_pair st -> one_record_per_pair (step st o).
Proof.
  destruct o; simpl; intros Hok H; try exact H.
  - now rewrite init_db_ok.
  - unfold one_record_per_pair, attendance_rows in *.
    now rewrite add_participant_attendance.
  - now apply record_attendance_one_per_pair.
Qed.

Lemma reachable_one_per_pair (st : db) : reachable st -> one_record_per_pair st.
Proof.
  induction 1 as [|st o Hr IH]; [constructor|].
  apply step_one_per_pair; [now apply reachable_ok|exact IH].
Qed.


(** ** The attendance repository: one record per participant and date *)




(** ** The participant repository *)



Lemma add_participant_rows (name : string) (email : option string) (st : db) :
  db_ok st ->
  ~ In name (map p_name (participant_rows st)) ->
  exists id,
    fst (add_participant name email st) = Some id
    /\ participant_rows (snd (add_participant name email st))
       = participant_rows st ++ [mk_participant id name email].
Proof.
  intros [(t & Et & _) _]. unfold participant_rows. rewrite add_participant_eq, Et.
  intros Hin. destruct (existsb _ (t_rows t)) eqn:Ex; [apply existsb_name_In in Ex; tauto|].
  eexists. split; reflexivity.
Qed.

(** Adding participants with fresh, pairwise distinct names appends one
    row for each and returns its id. *)
Lemma add_all_rows (l : list (string * option string)) :
  forall st,
    db_ok st ->
    NoDup (map fst l) ->
    (forall name, In name (map fst l) -> ~ In name (map p_name (participant_rows st))) ->
    db_ok (snd (add_all l st))
    /\ List.length (participant_rows (snd (add_all l st)))
       = (List.length (participant_rows st) + List.length l)%nat
    /\ incl (participant_rows st) (participant_rows (snd (add_all l st)))
    /\ Forall2
         (fun id ne =>
            exists i, id = Some i
                      /\ In (mk_participant i (fst ne) (snd ne))
                            (participant_rows (snd (add_all l st))))
         (fst (add_all l st)) l.
Proof.
  induction l as [|[name email] l IH]; simpl; intros st Hok Hnd Hfresh.
  - refine (conj Hok (conj _ (conj _ _))); [lia|apply incl_refl|constructor].
  - inversion Hnd as [|? ? Hname Hnd']; subst.
    destruct (add_participant_rows name email st Hok) as (id & Eid & Erows);
      [apply Hfresh; now left|].
    pose proof (add_participant_ok name email st Hok) as Hok1.
    destruct (add_participant name email st) as [oid st1]. simpl in *. subst oid.
    specialize (IH st1 Hok1 Hnd').
    destruct IH as (Hok2 & Hlen & Hincl & Hall).
    { intros n Hn. rewrite Erows, map_app, in_app_iff. simpl.
      intros [H|[H|[]]]; [apply (Hfresh n); tauto|congruence]. }
    destruct (add_all l st1) as [ids st2]. simpl in *.
    refine (conj Hok2 (conj _ (conj _ _))).
    + rewrite Hlen, Erows, length_app. simpl. lia.
    + intros x Hx. apply Hincl. rewrite Erows, in_app_iff. now left.
    + constructor; [|exact Hall]. exists id. split; [reflexivity|].
      apply Hincl. rewrite Erows, in_app_iff. right. now left.
Qed.

Lemma get_all_participants_eq (st : db) :
  get_all_participants st = order_by p_name (participant_rows st).
Proof.
  unfold get_all_participants, select_participants, participant_rows.
  now destruct (participants st).
Qed.

(** C4: [list_all()] is empty on an empty store, before and after
    [initialize()]; after adding N participants with pairwise distinct
    names to the initialized empty store it has exactly N entries, among
    them the id, name and email of every participant added, in
    lexicographic order of the names. *)
Theorem list_all_after_adds :
  get_all_participants empty_db = []
  /\ get_all_participants (init_db empty_db) = []
  /\ forall l : list (string * option string),
       NoDup (map fst l) ->
       let ids := fst (add_all l (init_db empty_db)) in
       let st := snd (add_all l (init_db empty_db)) in
       List.length (get_all_participants st) = List.length l
       /\ Forall2
            (fun id ne =>
               exists i, id = Some i
                         /\ In (mk_participant i (fst ne) (snd ne)) (get_all_participants st))
            ids l
       /\ StronglySorted (key_le p_name) (get_all_participants st).
Proof.
  split; [reflexivity|]. split; [reflexivity|].
  intros l Hnd ids st.
  destruct (add_all_rows l (init_db empty_db) init_db_empty_ok Hnd) as (_ & Hlen & _ & Hall).
  { intros n _ []. }
  fold st in Hlen, Hall. fold ids in Hall.
  rewrite get_all_participants_eq.
  pose proof (order_by_perm p_name (participant_rows st)) as Hperm.
  repeat split.
  - rewrite (Permutation_length Hperm), Hlen. reflexivity.
  - eapply Forall2_impl; [|exact Hall]. intros id ne (i & -> & Hin).
    exists i. split; [reflexivity|].
    eapply Permutation_in; [symmetry; exact Hperm|exact Hin].
  - apply order_by_sorted.
Qed.

Lemma list_all_after_adds_witness :
  let l := [("Daisy Duck", Some "daisy@example.com"); ("Charlie Brown", None)] in
  NoDup (map fst l)
  /\ get_all_participants (snd (add_all l (init_db empty_db)))
     = [mk_participant 2 "Charlie Brown" None;
        mk_participant 1 "Daisy Duck" (Some "daisy@example.com")]
  /\ List.length (get_all_participants (snd (add_all l (init_db empty_db)))) = List.length l.
Proof.
  intros l.
  assert (Hnd : NoDup (map fst l)).
  { simpl. repeat constructor; simpl; intuition discriminate. }
  split; [exact Hnd|]. split; [reflexivity|].
  exact (proj1 (proj2 (proj2 list_all_after_adds) l Hnd)).
Defined.

(** ** The report for a session *)

Lemma flat_map_if_filter {A B : Type} (f : A -> bool) (g : A -> list B) (l : list A) :
  flat_map (fun a => if f a then g a else []) l = flat_map g (filter f l).
Proof.
  induction l as [|a l IH]; simpl; [reflexivity|].
  destruct (f a); simpl; now rewrite IH.
Qed.

Lemma filter_all_false {A : Type} (f : A -> bool) (l : list A) :
  (forall a, In a l -> f a = false) -> filter f l = [].
Proof.
  induction l as [|a l IH]; simpl; intros H; [reflexivity|].
  rewrite (H a) by now left. apply IH. intros b Hb. apply H. now right.
Qed.

(** Joining one record to a table with a unique key finds the one
    participant the record refers to, if there is one. *)
Lemma join_one (a : attendance_record) (d : string) (ps : list participant) :
  NoDup (map p_id ps) ->
  flat_map
    (fun p =>
       if (ar_participant_id a =? p_id p) && (ar_session_date a =? d)%string
       then [mk_session_row (p_name p) (ar_status a) (ar_session_date a)]
       else [])
    ps
  = if (ar_session_date a =? d)%string
    then match name_of ps (ar_participant_id a) with
         | Some name => [mk_session_row name (ar_status a) (ar_session_date a)]
         | None => []
         end
    else [].
Proof.
  unfold name_of.
  induction ps as [|p ps IH]; simpl; intros Hnd.
  - now destruct (ar_session_date a =? d)%string.
  - inversion Hnd as [|? ? Hp Hps]; subst. rewrite (IH Hps). clear IH.
    rewrite (Z.eqb_sym (p_id p)).
    destruct (ar_participant_id a =? p_id p) eqn:E; simpl; [|reflexivity].
    destruct (ar_session_date a =? d)%string; [|reflexivity]. simpl.
    destruct (find (fun q => p_id q =? ar_participant_id a) ps) as [q|] eqn:Ef;
      [|reflexivity].
    exfalso. apply Hp. apply find_some in Ef. destruct Ef as [Hq Eq].
    apply Z.eqb_eq in E, Eq. rewrite <- E, <- Eq. now apply in_map.
Qed.

Lemma get_attendance_for_session_eq (d : string) (st : db) :
  db_ok st ->
  get_attendance_for_session d st = order_by sr_participant_name (for_session_spec d st).
Proof.
  intros [(ps & Ep & Hid & _) (ar & Ea & _)].
  unfold get_attendance_for_session, select_attendance_join, for_session_spec,
    participant_rows, attendance_rows.
  rewrite Ep, Ea. f_equal.
  rewrite <- flat_map_if_filter. apply flat_map_ext. intros a.
  now apply join_one.
Qed.

(** C3: on a store the application can be in, [for_session(d)] returns
    exactly the attendance records of date [d] whose participant exists,
    each with that participant's name, in the order of the names; when
    the store has no record of date [d] the result is empty. *)
Theorem for_session_is_sorted_join (st : db) (d : string) :
  reachable st ->
  Permutation (get_attendance_for_session d st) (for_session_spec d st)
  /\ StronglySorted (key_le sr_participant_name) (get_attendance_for_session d st)
  /\ Forall (fun row => sr_session_date row = d) (get_attendance_for_session d st)
  /\ ((forall a, In a (attendance_rows st) -> ar_session_date a <> d) ->
      get_attendance_for_session d st = []).
Proof.
  intros Hr. rewrite (get_attendance_for_session_eq d st (reachable_ok _ Hr)).
  pose proof (order_by_perm sr_participant_name (for_session_spec d st)) as Hperm.
  assert (Hdate : Forall (fun row => sr_session_date row = d) (for_session_spec d st)).
  { apply Forall_forall. intros row Hrow. unfold for_session_spec in Hrow.
    apply in_flat_map in Hrow. destruct Hrow as (a & Ha & Hrow).
    apply filter_In in Ha. destruct Ha as [_ Ha]. apply String.eqb_eq in Ha.
    destruct (name_of _ _); [|destruct Hrow].
    destruct Hrow as [<-|[]]. exact Ha. }
  repeat split.
  - exact Hperm.
  - apply order_by_sorted.
  - eapply Permutation_Forall; [symmetry; exact Hperm|exact Hdate].
  - intros Hnone. apply Permutation_nil.
    etransitivity; [|symmetry; exact Hperm].
    unfold for_session_spec.
    rewrite filter_all_false; [reflexivity|]. intros a Ha.
    apply Hnone in Ha. now apply String.eqb_neq.
Qed.

Lemma for_session_is_sorted_join_witness :
  let st := run [OpAdd "Harry Potter" None; OpAdd "Grace Hopper" None;
                 OpRecord 1 "2024-01-03" "Absent"; OpRecord 2 "2024-01-03" "Present";
                 OpRecord 2 "2024-01-04" "Absent"; OpRecord 9 "2024-01-03" "Present"]
                (init_db empty_db) in
  get_attendance_for_session "2024-01-03" st
  = [mk_session_row "Grace Hopper" "Present" "2024-01-03";
     mk_session_row "Harry Potter" "Absent" "2024-01-03"]
  /\ Permutation (get_attendance_for_session "2024-01-03" st)
                 (for_session_spec "2024-01-03" st).
Proof.
  intros st. split; [reflexivity|].
  apply (for_session_is_sorted_join st "2024-01-03").
  apply reachable_run. constructor.
Defined.

(** ** The store *)

(** C7: [initialize()] is idempotent: it keeps every row of both tables,
    it changes nothing at all on a store that has both tables, and running
    it twice leaves what running it once leaves. *)
Theorem init_db_idempotent (st : db) :
  init_db (init_db st) = init_db st
  /\ participant_rows (init_db st) = participant_rows st
  /\ attendance_rows (init_db st) = attendance_rows st
  /\ (forall ps ar,
        participants st = Some ps -> attendance_records st = Some ar -> init_db st = st).
Proof.
  rewrite !init_db_eq. unfold participant_rows, attendance_rows.
  destruct st as [[ps|] [ar|]]; simpl; repeat split; intros; congruence.
Qed.

Lemma init_db_idempotent_witness :
  let st := run [OpAdd "Alice" None; OpRecord 1 "2024-01-03" "Present"] (init_db empty_db) in
  init_db st = st.
Proof.
  intros st.
  exact (proj2 (proj2 (proj2 (init_db_idempotent st))) _ _ eq_refl eq_refl).
Defined.

(** C8: for a status other than [Present] and [Absent],
    [record(p, d, s)] returns false and leaves the store, and with it the
    attendance table, as it was. *)
Theorem record_attendance_rejects_status (st : db) (p : Z) (d s : string) :
  s <> "Present" -> s <> "Absent" ->
  record_attendance p d s st = (false, st)
  /\ attendance_rows (snd (record_attendance p d s st)) = attendance_rows st.
Proof.
  intros H1 H2. rewrite record_attendance_eq.
  assert (Hs : status_check s = false).
  { unfold status_check. apply String.eqb_neq in H1, H2. now rewrite H1, H2. }
  rewrite Hs. now destruct (attendance_records st).
Qed.

Lemma record_attendance_rejects_status_witness :
  let st := run [OpAdd "Alice" None; OpRecord 1 "2024-01-03" "Present"] (init_db empty_db) in
  record_attendance 1 "2024-01-03" "Late" st = (false, st)
  /\ record_attendance 2 "2024-01-03" "present" st = (false, st).
Proof.
  intros st. split.
  - apply (record_attendance_rejects_status st 1 "2024-01-03" "Late"); discriminate.
  - apply (record_attendance_rejects_status st 2 "2024-01-03" "present"); discriminate.
Defined.

(** ** The routes *)

(** C5: [/attendance] answers with a redirect to the setup page whenever
    the session holds no [session_date], whatever the request, and
    whenever the request is a GET and there is no participant; it renders
    the marking form only for a GET with a non-empty stored date and at
    least one participant. *)
Theorem mark_attendance_guard (int : string -> option Z) (req : request)
  (session : gmap string string) (st : db) :
  (session !! "session_date" = None ->
   response_of (mark_attendance_page int req session st) = redirect ep_setup_page [])
  /\ (method req = GET -> get_all_participants st = [] ->
      response_of (mark_attendance_page int req session st) = redirect ep_setup_page [])
  /\ (forall ps d,
        response_of (mark_attendance_page int req session st) = render_mark_attendance ps d ->
        session !! "session_date" = Some d /\ d <> ""
        /\ method req = GET
        /\ ps = get_all_participants st /\ ps <> []).
Proof.
  unfold mark_attendance_page, response_of.
  destruct (session !! "session_date") as [sd|] eqn:Es; simpl.
  2: { repeat split; try reflexivity; discriminate. }
  destruct (sd =? "")%string eqn:Esd; simpl.
  { repeat split; try reflexivity; discriminate. }
  apply String.eqb_neq in Esd.
  destruct (method req); simpl.
  - destruct (get_all_participants st) as [|p ps'] eqn:Eps; simpl.
    + repeat split; try reflexivity; discriminate.
    + split; [discriminate|]. split; [discriminate|].
      intros ps d [= <- <-]. repeat split; try assumption. discriminate.
  - split; [discriminate|]. split; [discriminate|]. intros ps d.
    destruct (multidict_get "session_date" (form req)) as [fd|]; simpl; [|discriminate].
    destruct (fd =? "")%string; simpl; discriminate.
Qed.

Lemma mark_attendance_guard_witness :
  response_of (mark_attendance_page ascii_int (mk_request GET [] []) ∅
                 (run [OpAdd "Session Tester" None] (init_db empty_db)))
  = redirect ep_setup_page []
  /\ response_of (mark_attendance_page ascii_int (mk_request GET [] [])
                    {["session_date" := "2024-03-02"]} (init_db empty_db))
     = redirect ep_setup_page [].
Proof.
  split.
  - apply (proj1 (mark_attendance_guard ascii_int _ _ _)). reflexivity.
  - apply (proj1 (proj2 (mark_attendance_guard ascii_int _ _ _))); reflexivity.
Defined.

(** C6: what [GET /view] fetches depends on the [session_date_view] query
    parameter and the store only: two requests with the same parameter get
    the same response whatever their session states, neither the session
    nor the store is changed, and without the parameter the records are
    the empty sequence. *)
Theorem view_depends_on_query_only (req1 req2 : request)
  (session1 session2 : gmap string string) (st : db) :
  multidict_get "session_date_view" (args req1) = multidict_get "session_date_view" (args req2) ->
  response_of (view_attendance_page req1 session1 st)
  = response_of (view_attendance_page req2 session2 st)
  /\ session_of (view_attendance_page req1 session1 st) = session1
  /\ store_of (view_attendance_page req1 session1 st) = st
  /\ (multidict_get "session_date_view" (args req1) = None ->
      response_of (view_attendance_page req1 session1 st) = render_view_attendance [] None).
Proof.
  unfold view_attendance_page, response_of, session_of, store_of. simpl.
  intros ->. repeat split. now intros ->.
Qed.

Lemma view_depends_on_query_only_witness :
  let st := run [OpAdd "View Tester" None; OpRecord 1 "2024-03-04" "Present"]
                (init_db empty_db) in
  response_of (view_attendance_page
                 (mk_request GET [] [("session_date_view", "2024-03-04")]) ∅ st)
  = response_of (view_attendance_page
                   (mk_request GET [("x", "y")] [("session_date_view", "2024-03-04")])
                   {["session_date" := "2024-01-01"]} st).
Proof.
  intros st.
  apply (view_depends_on_query_only
           (mk_request GET [] [("session_date_view", "2024-03-04")])
           (mk_request GET [("x", "y")] [("session_date_view", "2024-03-04")])).
  reflexivity.
Defined.

(** C10: a POST to [/] whose form carries a non-empty [session_date]
    (as [request.form.get] reads the field) leaves that value in the
    session under [session_date], and nothing else in the session changed,
    whatever the action; the action already sees it:
    [proceed_to_attendance] then redirects to the marking page. *)
Theorem setup_post_stores_date (req : request)
  (session : gmap string string) (st : db) (d : string) :
  method req = POST ->
  multidict_get "session_date" (form req) = Some d ->
  d <> "" ->
  session_of (setup_page req session st) = <["session_date" := d]> session
  /\ session_of (setup_page req session st) !! "session_date" = Some d
  /\ (multidict_get "action" (form req) = Some "proceed_to_attendance" ->
      response_of (setup_page req session st) = redirect ep_mark_attendance_page []).
Proof.
  intros Hm Hd Hne. unfold setup_page, session_of, response_of.
  rewrite Hm, Hd. simpl.
  apply String.eqb_neq in Hne. rewrite Hne. simpl.
  assert (Hl : (<["session_date" := d]> session : gmap string string) !! "session_date" = Some d)
    by apply lookup_insert_eq.
  destruct (py_eq (multidict_get "action" (form req)) "add_participant") eqn:Ea; simpl.
  - repeat split; [exact Hl|]. intros E. rewrite E in Ea. discriminate Ea.
  - destruct (py_eq (multidict_get "action" (form req)) "proceed_to_attendance") eqn:Ep.
    + rewrite Hl. simpl. rewrite Hne. simpl. repeat split. exact Hl.
    + simpl. repeat split; [exact Hl|]. intros E. rewrite E in Ep. discriminate Ep.
Qed.

Lemma setup_post_stores_date_witness :
  let out := setup_page
               (mk_request POST [("session_date", "2024-03-01");
                                 ("action", "proceed_to_attendance")] [])
               ∅ (init_db empty_db) in
  session_of out !! "session_date" = Some "2024-03-01"
  /\ response_of out = redirect ep_mark_attendance_page [].
Proof.
  intros out.
  destruct (setup_post_stores_date
              (mk_request POST [("session_date", "2024-03-01");
                                ("action", "proceed_to_attendance")] [])
              ∅ (init_db empty_db) "2024-03-01" eq_refl eq_refl) as (_ & Hs & Hr).
  - discriminate.
  - split; [exact Hs|]. apply Hr. reflexivity.
Defined.

(** *** Submitting the marking form *)


Lemma record_attendance_participants (p : Z) (d s : string) (st : db) :
  participants (snd (record_attendance p d s st)) = participants st.
Proof.
  rewrite record_attendance_eq. destruct (attendance_records st) as [t|]; [|reflexivity].
  destruct (status_check s); [|reflexivity].
  now destruct (find (about p d) (t_rows t)).
Qed.





Section MarkStatus.

Variable int : string -> option Z.
Variable session_date : string.


Lemma mark_status_participants (st : db) (item : string * string) :
  participants (mark_status int session_date st item) = participants st.
Proof.
  destruct item as [key value]. unfold mark_status.
  destruct (startswith "status_" key); [|reflexivity].
  destruct (int _); [|reflexivity]. apply record_attendance_participants.
Qed.






End MarkStatus.



(** ** The repository's tests, replayed on the model *)

Example test_add_participant_unique :
  add_participant "Alice Wonderland" (Some "alice@example.com") (init_db empty_db)
  = (Some 1,
     mk_db (Some (mk_table [mk_participant 1 "Alice Wonderland" (Some "alice@example.com")] 1))
           (Some empty_table)).
Proof. reflexivity. Qed.

Example test_add_participant_duplicate_name :
  fst (add_participant "Bob The Builder" None
         (snd (add_participant "Bob The Builder" None (init_db empty_db))))
  = None.
Proof. reflexivity. Qed.

Example test_get_all_participants_with_data :
  map p_name
      (get_all_participants
         (run [OpAdd "Daisy Duck" None; OpAdd "Charlie Brown" None] (init_db empty_db)))
  = ["Charlie Brown"; "Daisy Duck"].
Proof. reflexivity. Qed.

Example test_record_attendance_update :
  let st := run [OpAdd "Frank N. Stein" None; OpRecord 1 "2024-01-02" "Present"]
                (init_db empty_db) in
  fst (record_attendance 1 "2024-01-02" "Absent" st) = true
  /\ attendance_rows (snd (record_attendance 1 "2024-01-02" "Absent" st))
     = [mk_attendance_record 1 1 "2024-01-02" "Absent"].
Proof. split; reflexivity. Qed.

Example test_get_attendance_for_session_with_data :
  get_attendance_for_session "2024-01-03"
    (run [OpAdd "Grace Hopper" None; OpAdd "Harry Potter" None;
          OpRecord 1 "2024-01-03" "Present"; OpRecord 2 "2024-01-03" "Absent"]
         (init_db empty_db))
  = [mk_session_row "Grace Hopper" "Present" "2024-01-03";
     mk_session_row "Harry Potter" "Absent" "2024-01-03"].
Proof. reflexivity. Qed.

Example test_get_attendance_for_session_no_records_for_date :
  get_attendance_for_session "2024-01-04"
    (run [OpAdd "Isolated Person" None] (init_db empty_db)) = [].
Proof. reflexivity. Qed.

Example test_setup_page_proceed_to_attendance :
  let out := setup_page
               (mk_request POST [("session_date", "2024-03-01");
                                 ("action", "proceed_to_attendance")] [])
               ∅ (init_db empty_db) in
  response_of out = redirect ep_mark_attendance_page []
  /\ session_of out !! "session_date" = Some "2024-03-01".
Proof. split; reflexivity. Qed.

Example test_attendance_page_get_no_session_date :
  response_of (mark_attendance_page ascii_int (mk_request GET [] []) ∅ (init_db empty_db))
  = redirect ep_setup_page [].
Proof. reflexivity. Qed.

Example test_attendance_page_post_submit_attendance :
  let st := run [OpAdd "Participant One" None; OpAdd "Participant Two" None]
                (init_db empty_db) in
  let out := mark_attendance_page ascii_int
               (mk_request POST [("status_1", "Present"); ("status_2", "Absent");
                                 ("session_date", "2024-03-03")] [])
               {["session_date" := "2024-03-03"]} st in
  response_of out = redirect ep_view_attendance_page [("session_date_view", "2024-03-03")]
  /\ get_attendance_for_session "2024-03-03" (store_of out)
     = [mk_session_row "Participant One" "Present" "2024-03-03";
        mk_session_row "Participant Two" "Absent" "2024-03-03"].
Proof. split; reflexivity. Qed.

Example test_view_page_get_no_date_provided :
  response_of (view_attendance_page (mk_request GET [] []) ∅ (init_db empty_db))
  = render_view_attendance [] None.
Proof. reflexivity. Qed.

(** * Further properties of the data-access functions *)

Lemma map_inj_in {A B : Type} (g : A -> B) (l : list A) (x y : A) :
  NoDup (map g l) -> In x l -> In y l -> g x = g y -> x = y.
Proof.
  induction l as [|z l IH]; simpl; [tauto|].
  intros Hnd Hx Hy E. inversion Hnd as [|? ? Hz Hl]; subst.
  destruct Hx as [->|Hx], Hy as [->|Hy]; try reflexivity.
  - exfalso. apply Hz. rewrite E. now apply in_map.
  - exfalso. apply Hz. rewrite <- E. now apply in_map.
  - now apply IH.
Qed.

Lemma status_check_iff (s : string) :
  status_check s = true <-> s = "Present" \/ s = "Absent".
Proof.
  unfold status_check. rewrite orb_true_iff, !String.eqb_eq. tauto.
Qed.

Lemma init_db_rows (st : db) :
  participant_rows (init_db st) = participant_rows st
  /\ attendance_rows (init_db st) = attendance_rows st.
Proof.
  rewrite init_db_eq. unfold participant_rows, attendance_rows.
  destruct st as [[ps|] [ar|]]; split; reflexivity.
Qed.

Lemma record_key_update_row (s : string) (id : Z) (l : list attendance_record) :
  map record_key (map (update_row s id) l) = map record_key l.
Proof.
  rewrite map_map. apply map_ext. intros r. unfold update_row.
  now destruct (ar_id r =? id).
Qed.

Lemma step_appends (st : db) (o : op) :
  exists ps ks,
    participant_rows (step st o) = participant_rows st ++ ps
    /\ map record_key (attendance_rows (step st o))
       = map record_key (attendance_rows st) ++ ks.
Proof.
  destruct o as [|name email| |p d s|d]; simpl.
  - exists [], []. destruct (init_db_rows st) as [-> ->]. now rewrite !app_nil_r.
  - unfold participant_rows, attendance_rows.
    rewrite add_participant_attendance, add_participant_eq.
    destruct (participants st) as [t|] eqn:Ep; simpl.
    + destruct (existsb _ (t_rows t)); simpl.
      * exists [], []. now rewrite Ep, !app_nil_r.
      * exists [mk_participant (t_seq t + 1) name email], [].
        rewrite app_nil_r. split; reflexivity.
    + exists [], []. now rewrite Ep, !app_nil_r.
  - exists [], []. now rewrite !app_nil_r.
  - unfold participant_rows. rewrite record_attendance_participants.
    exists []. rewrite app_nil_r. unfold attendance_rows. rewrite record_attendance_eq.
    destruct (attendance_records st) as [t|] eqn:Et; simpl.
    + destruct (status_check s); simpl.
      * destruct (find (about p d) (t_rows t)); simpl.
        -- exists []. rewrite record_key_update_row, app_nil_r. now split.
        -- eexists. rewrite map_app. split; reflexivity.
      * rewrite Et. exists []. now rewrite app_nil_r.
    + rewrite Et. exists []. now split.
  - exists [], []. now rewrite !app_nil_r.
Qed.

(** X1: no sequence of repository calls deletes, reorders or rewrites a
    participant, and none deletes an attendance record or changes its
    rowid, participant or date: both tables only grow at the end. *)
Theorem tables_only_grow (ops : list op) (st : db) :
  exists ps ks,
    participant_rows (run ops st) = participant_rows st ++ ps
    /\ map record_key (attendance_rows (run ops st))
       = map record_key (attendance_rows st) ++ ks.
Proof.
  revert st. induction ops as [|o ops IH]; simpl; intros st.
  - exists [], []. now rewrite !app_nil_r.
  - destruct (IH (step st o)) as (ps2 & ks2 & Hp2 & Hk2).
    destruct (step_appends st o) as (ps1 & ks1 & Hp1 & Hk1).
    exists (ps1 ++ ps2), (ks1 ++ ks2). unfold run in *.
    rewrite Hp2, Hk2, Hp1, Hk1, !app_assoc. now split.
Qed.

(** X2: every store the application can be in satisfies what the schema
    declares: participant ids are positive and unique, participant names
    are unique, attendance ids are positive and unique, and every stored
    status is [Present] or [Absent]. *)
Theorem reachable_store_satisfies_schema (st : db) :
  reachable st ->
  NoDup (map p_id (participant_rows st))
  /\ NoDup (map p_name (participant_rows st))
  /\ Forall (fun p => 0 < p_id p) (participant_rows st)
  /\ NoDup (map ar_id (attendance_rows st))
  /\ Forall (fun r => 0 < ar_id r) (attendance_rows st)
  /\ Forall (fun r => ar_status r = "Present" \/ ar_status r = "Absent") (attendance_rows st).
Proof.
  intros Hr.
  destruct (reachable_ok _ Hr) as
    [(ps & Ep & Hpid & Hname & Hprange & _) (ar & Ea & Haid & Harange & Hstatus & _)].
  unfold participant_rows, attendance_rows. rewrite Ep, Ea.
  repeat split; try assumption.
  - eapply Forall_impl; [|exact Hprange]. simpl. intros; lia.
  - eapply Forall_impl; [|exact Harange]. simpl. intros; lia.
  - eapply Forall_impl; [|exact Hstatus]. intros r. apply status_check_iff.
Qed.

Lemma reachable_store_satisfies_schema_witness :
  let st := run [OpAdd "Alice" None; OpAdd "Alice" None; OpAdd "Bob" None;
                 OpRecord 2 "2024-01-03" "Present"; OpRecord 2 "2024-01-03" "Late"]
                (init_db empty_db) in
  NoDup (map p_name (participant_rows st))
  /\ Forall (fun r => ar_status r = "Present" \/ ar_status r = "Absent") (attendance_rows st).
Proof.
  intros st.
  assert (Hr : reachable st) by (apply reachable_run; constructor).
  destruct (reachable_store_satisfies_schema st Hr) as (_ & H2 & _ & _ & _ & H6).
  split; assumption.
Defined.





Lemma step_empty_db (o : op) : o <> OpInit -> step empty_db o = empty_db.
Proof. destruct o; simpl; [congruence|reflexivity..]. Qed.

(** X5: until [init_db()] has run nothing is ever stored: from the fresh
    file every sequence of repository calls without [initialize] leaves
    the file without tables, every add returns [None], every record
    returns [False] and both listings are empty. *)
Theorem nothing_is_stored_before_initialize (ops : list op) :
  Forall (fun o => o <> OpInit) ops ->
  run ops empty_db = empty_db
  /\ (forall name email, add_participant name email (run ops empty_db) = (None, empty_db))
  /\ (forall p d s, record_attendance p d s (run ops empty_db) = (false, empty_db))
  /\ get_all_participants (run ops empty_db) = []
  /\ (forall d, get_attendance_for_session d (run ops empty_db) = []).
Proof.
  intros Hops.
  assert (E : run ops empty_db = empty_db).
  { unfold run. induction Hops as [|o ops Ho _ IH]; simpl; [reflexivity|].
    now rewrite step_empty_db. }
  rewrite E. repeat split.
Qed.

Lemma nothing_is_stored_before_initialize_witness :
  run [OpAdd "Alice" None; OpRecord 1 "2024-01-03" "Present"] empty_db = empty_db.
Proof.
  apply (nothing_is_stored_before_initialize
           [OpAdd "Alice" None; OpRecord 1 "2024-01-03" "Present"]).
  repeat constructor; discriminate.
Defined.

Lemma find_map_update_row (p : Z) (d s : string) (id : Z) (l : list attendance_record) :
  find (about p d) (map (update_row s id) l)
  = option_map (update_row s id) (find (about p d) l).
Proof.
  induction l as [|x l IH]; simpl; [reflexivity|].
  rewrite about_update_row. now destruct (about p d x).
Qed.

Lemma ar_id_update_row_one (s : string) (id : Z) (r : attendance_record) :
  ar_id (update_row s id r) = ar_id r.
Proof. unfold update_row. now destruct (ar_id r =? id). Qed.

Lemma update_row_twice (s : string) (id : Z) (r : attendance_record) :
  update_row s id (update_row s id r) = update_row s id r.
Proof.
  unfold update_row. destruct (ar_id r =? id) eqn:E; simpl; rewrite E; reflexivity.
Qed.

Lemma find_snoc_none {A : Type} (f : A -> bool) (l : list A) (x : A) :
  find f l = None -> f x = true -> find f (l ++ [x]) = Some x.
Proof.
  induction l as [|y l IH]; simpl; intros Hf Hx.
  - now rewrite Hx.
  - destruct (f y); [discriminate|]. now apply IH.
Qed.

(** X6: [record_attendance] is idempotent on the store: on a store the
    application can be in, a second call with the same participant, date
    and status changes nothing. *)
Theorem record_attendance_idempotent (p : Z) (d s : string) (st : db) :
  reachable st ->
  snd (record_attendance p d s (snd (record_attendance p d s st)))
  = snd (record_attendance p d s st).
Proof.
  intros Hr. destruct (reachable_ok _ Hr) as [_ (t & Et & _ & Hrange & _)].
  rewrite (record_attendance_eq p d s st), Et.
  destruct (status_check s) eqn:Es; simpl.
  2: { rewrite record_attendance_eq, Et, Es. reflexivity. }
  destruct (find (about p d) (t_rows t)) as [r|] eqn:Ef; simpl.
  - rewrite record_attendance_eq. simpl. rewrite Es, find_map_update_row, Ef. simpl.
    rewrite ar_id_update_row_one, map_map. do 3 f_equal.
    apply map_ext. intros x. apply update_row_twice.
  - rewrite record_attendance_eq. simpl. rewrite Es.
    rewrite (find_snoc_none _ _ _ Ef)
      by (unfold about; simpl; now rewrite Z.eqb_refl, String.eqb_refl).
    simpl. do 3 f_equal. rewrite map_app. simpl. f_equal.
    + rewrite <- (map_id (t_rows t)) at 2. apply map_ext_in. intros x Hx.
      rewrite Forall_forall in Hrange. apply Hrange in Hx.
      unfold update_row. destruct (ar_id x =? t_seq t + 1) eqn:E; [|reflexivity].
      apply Z.eqb_eq in E. lia.
    + unfold update_row. simpl. now rewrite Z.eqb_refl.
Qed.

Lemma record_attendance_idempotent_witness :
  let st := run [OpAdd "Frank N. Stein" None; OpRecord 1 "2024-01-02" "Present"]
                (init_db empty_db) in
  snd (record_attendance 1 "2024-01-02" "Absent"
         (snd (record_attendance 1 "2024-01-02" "Absent" st)))
  = snd (record_attendance 1 "2024-01-02" "Absent" st).
Proof.
  intros st. apply (record_attendance_idempotent 1 "2024-01-02" "Absent" st).
  apply reachable_run. constructor.
Defined.


Lemma name_of_Some (ps : list participant) (id : Z) (name : string) :
  name_of ps id = Some name -> exists q, In q ps /\ p_id q = id /\ p_name q = name.
Proof.
  unfold name_of. destruct (find (fun x => p_id x =? id) ps) as [x|] eqn:Ef; simpl;
    [|discriminate].
  intros [= <-]. apply find_some in Ef. destruct Ef as [Hx E]. apply Z.eqb_eq in E.
  now exists x.
Qed.

Lemma in_for_session_spec (d : string) (st : db) (row : session_row) :
  In row (for_session_spec d st)
  <-> exists a, In a (attendance_rows st) /\ ar_session_date a = d
                /\ name_of (participant_rows st) (ar_participant_id a)
                   = Some (sr_participant_name row)
                /\ sr_status row = ar_status a /\ sr_session_date row = d.
Proof.
  unfold for_session_spec. rewrite in_flat_map. split.
  - intros (a & Ha & Hrow). apply filter_In in Ha. destruct Ha as [Ha Ed].
    apply String.eqb_eq in Ed. exists a.
    destruct (name_of _ _) as [n|]; [|destruct Hrow].
    destruct Hrow as [<-|[]]. simpl. tauto.
  - intros (a & Ha & Ed & En & Es & Ed'). exists a. split.
    + apply filter_In. split; [exact Ha|]. now apply String.eqb_eq.
    + rewrite En. left. destruct row; simpl in *. congruence.
Qed.





Lemma NoDup_map_filter {A B : Type} (g : A -> B) (f : A -> bool) (l : list A) :
  NoDup (map g l) -> NoDup (map g (filter f l)).
Proof.
  induction l as [|x l IH]; simpl; intros Hnd; [constructor|].
  inversion Hnd as [|? ? Hx Hl]; subst.
  destruct (f x); simpl; [|now apply IH].
  constructor; [|now apply IH].
  intros Hin. apply Hx. apply in_map_iff in Hin. destruct Hin as (y & E & Hy).
  apply filter_In in Hy. rewrite <- E. apply in_map. tauto.
Qed.

Lemma name_of_inj (ps : list participant) (i j : Z) (name : string) :
  NoDup (map p_name ps) ->
  name_of ps i = Some name -> name_of ps j = Some name -> i = j.
Proof.
  intros Hnd Hi Hj.
  apply name_of_Some in Hi, Hj.
  destruct Hi as (q & Hq & <- & Eq), Hj as (q' & Hq' & <- & Eq').
  now rewrite (map_inj_in p_name ps q q' Hnd Hq Hq') by congruence.
Qed.

Lemma reachable_store_schema_statuses (st : db) :
  reachable st -> Forall (fun r => status_check (ar_status r) = true) (attendance_rows st).
Proof.
  intros Hr. destruct (reachable_ok _ Hr) as [_ (ar & Ea & _ & _ & Hstatus & _)].
  unfold attendance_rows. now rewrite Ea.
Qed.

(** X9: no participant appears twice in a report: on a store the
    application can be in, the names of the rows [for_session(d)] returns
    are pairwise distinct. *)
Theorem report_has_one_row_per_participant (d : string) (st : db) :
  reachable st ->
  NoDup (map sr_participant_name (get_attendance_for_session d st)).
Proof.
  intros Hr. pose proof (reachable_ok _ Hr) as Hok.
  rewrite (get_attendance_for_session_eq d st Hok).
  eapply Permutation_NoDup;
    [apply Permutation_map; symmetry; apply order_by_perm|].
  pose proof (reachable_one_per_pair _ Hr) as Hone.
  destruct Hok as [(ps & Ep & _ & Hname & _) _].
  unfold for_session_spec, one_record_per_pair, participant_rows in *. rewrite Ep.
  set (keep := fun a : attendance_record => (ar_session_date a =? d)%string).
  assert (Hpairs : NoDup (map pair_of (filter keep (attendance_rows st))))
    by now apply NoDup_map_filter.
  assert (Hdate : Forall (fun a => ar_session_date a = d) (filter keep (attendance_rows st))).
  { apply Forall_forall. intros a Ha. apply filter_In in Ha. now apply String.eqb_eq. }
  induction (filter keep (attendance_rows st)) as [|a l IH]; simpl; [constructor|].
  inversion Hpairs as [|? ? Ha Hl]; subst. inversion Hdate as [|? ? Da Dl]; subst.
  rewrite map_app. specialize (IH Hl Dl).
  destruct (name_of (t_rows ps) (ar_participant_id a)) as [n|] eqn:En; simpl; [|exact IH].
  constructor; [|exact IH].
  intros Hin. apply Ha. apply in_map_iff in Hin. destruct Hin as (row & <- & Hrow).
  apply in_flat_map in Hrow. destruct Hrow as (a' & Ha' & Hrow).
  destruct (name_of (t_rows ps) (ar_participant_id a')) as [n'|] eqn:En'; [|destruct Hrow].
  destruct Hrow as [<-|[]]. simpl in En.
  assert (E : ar_participant_id a = ar_participant_id a')
    by (eapply name_of_inj; eauto).
  rewrite Forall_forall in Dl. apply in_map_iff. exists a'. split; [|exact Ha'].
  unfold pair_of. now rewrite E, (Dl a' Ha').
Qed.

Lemma report_has_one_row_per_participant_witness :
  NoDup (map sr_participant_name
           (get_attendance_for_session "2024-01-03"
              (run [OpAdd "Grace Hopper" None; OpAdd "Harry Potter" None;
                    OpRecord 1 "2024-01-03" "Present"; OpRecord 1 "2024-01-03" "Absent";
                    OpRecord 2 "2024-01-03" "Absent"] (init_db empty_db)))).
Proof.
  apply report_has_one_row_per_participant. apply reachable_run. constructor.
Defined.

(** X10: a report never shows a status other than [Present] and [Absent],
    and never a name that is not a participant's: on a store the
    application can be in, every row of [for_session(d)] carries an
    accepted status and the name of a stored participant. *)
Theorem report_rows_are_well_formed (d : string) (st : db) :
  reachable st ->
  Forall (fun row =>
            (sr_status row = "Present" \/ sr_status row = "Absent")
            /\ In (sr_participant_name row) (map p_name (participant_rows st)))
         (get_attendance_for_session d st).
Proof.
  intros Hr. pose proof (reachable_ok _ Hr) as Hok.
  rewrite (get_attendance_for_session_eq d st Hok).
  eapply Permutation_Forall; [symmetry; apply order_by_perm|].
  apply Forall_forall. intros row Hrow.
  apply in_for_session_spec in Hrow. destruct Hrow as (a & Ha & _ & Hn & Hs & _).
  split.
  - pose proof (reachable_store_schema_statuses st Hr) as Hst.
    rewrite Forall_forall in Hst. rewrite Hs. now apply status_check_iff, Hst.
  - apply name_of_Some in Hn. destruct Hn as (q & Hq & _ & <-). now apply in_map.
Qed.

Lemma report_rows_are_well_formed_witness :
  Forall (fun row =>
            (sr_status row = "Present" \/ sr_status row = "Absent")
            /\ In (sr_participant_name row)
                  (map p_name
                     (participant_rows
                        (run [OpAdd "Grace Hopper" None; OpRecord 1 "2024-01-03" "Present";
                              OpRecord 7 "2024-01-03" "Absent"] (init_db empty_db)))))
         (get_attendance_for_session "2024-01-03"
            (run [OpAdd "Grace Hopper" None; OpRecord 1 "2024-01-03" "Present";
                  OpRecord 7 "2024-01-03" "Absent"] (init_db empty_db))).
Proof.
  apply report_rows_are_well_formed. apply reachable_run. constructor.
Defined.

(** * Further properties of the routes *)

Lemma mark_status_reachable (int : string -> option Z) (d : string) (st : db)
  (item : string * string) :
  reachable st -> reachable (mark_status int d st item).
Proof.
  destruct item as [key value]. unfold mark_status. intros Hr.
  destruct (startswith "status_" key); [|exact Hr].
  destruct (int _) as [p|]; [|exact Hr].
  exact (reachable_step st (OpRecord p d value) Hr).
Qed.

Lemma mark_all_reachable (int : string -> option Z) (d : string)
  (items : list (string * string)) :
  forall st, reachable st -> reachable (fold_left (mark_status int d) items st).
Proof.
  induction items as [|item items IH]; simpl; intros st Hr; [exact Hr|].
  apply IH. now apply mark_status_reachable.
Qed.

(** X11: the routes never take the store outside what repository calls
    can produce: from a store the application can be in, the store after
    [/], [/attendance], [/view] or [/init_db_route] is again one; so after
    any request the attendance table still has at most one record for each
    participant and date. *)
Theorem routes_keep_store_reachable (int : string -> option Z) (req : request)
  (session : gmap string string) (st : db) :
  reachable st ->
  reachable (store_of (setup_page req session st))
  /\ reachable (store_of (mark_attendance_page int req session st))
  /\ reachable (store_of (view_attendance_page req session st))
  /\ reachable (snd (initialize_database_route st))
  /\ one_record_per_pair (store_of (mark_attendance_page int req session st)).
Proof.
  intros Hr.
  assert (Hmark : reachable (store_of (mark_attendance_page int req session st))).
  { unfold mark_attendance_page, store_of.
    destruct (session !! "session_date") as [sd|]; [|exact Hr].
    destruct (negb (truthy (Some sd))); [exact Hr|].
    destruct (method req).
    - now destruct (get_all_participants st).
    - destruct (multidict_get "session_date" (form req)) as [fd|]; [|exact Hr].
      destruct (negb (truthy (Some fd))); [exact Hr|]. simpl.
      now apply mark_all_reachable. }
  split; [|split; [exact Hmark|split; [exact Hr|split]]].
  - unfold setup_page, store_of. destruct (method req); [exact Hr|].
    destruct (py_eq (multidict_get "action" (form req)) "add_participant").
    + simpl. destruct (multidict_get "participant_name" (form req)) as [name|]; [|exact Hr].
      destruct (negb _); [|exact Hr].
      exact (reachable_step st (OpAdd name None) Hr).
    + destruct (py_eq (multidict_get "action" (form req)) "proceed_to_attendance");
        [|exact Hr].
      now destruct (truthy _).
  - exact (reachable_step st OpInit Hr).
  - now apply reachable_one_per_pair.
Qed.

Lemma routes_keep_store_reachable_witness :
  let st := run [OpAdd "Participant One" None] (init_db empty_db) in
  one_record_per_pair
    (store_of (mark_attendance_page ascii_int
                 (mk_request POST [("status_1", "Present"); ("status_1_again", "Absent");
                                   ("session_date", "2024-03-03")] [])
                 {["session_date" := "2024-03-03"]} st)).
Proof.
  intros st.
  apply (routes_keep_store_reachable ascii_int _ _ st).
  apply reachable_run. constructor.
Defined.

Lemma mark_status_ignored (int : string -> option Z) (d : string) (st : db)
  (item : string * string) :
  status_field int item = false -> mark_status int d st item = st.
Proof.
  destruct item as [key value]. unfold status_field, mark_status. simpl.
  destruct (startswith "status_" key); [|reflexivity].
  now destruct (int _).
Qed.

(** X12: the marking loop acts on status fields only: the fields whose
    name does not start with [status_], and those whose id part [int]
    rejects, are skipped without stopping the loop, so the store after the
    loop is the one the remaining fields alone would give. *)
Theorem marking_skips_other_fields (int : string -> option Z) (d : string)
  (items : list (string * string)) (st : db) :
  fold_left (mark_status int d) items st
  = fold_left (mark_status int d) (filter (status_field int) items) st.
Proof.
  revert st. induction items as [|item items IH]; simpl; intros st; [reflexivity|].
  destruct (status_field int item) eqn:E; simpl; [apply IH|].
  rewrite (mark_status_ignored _ _ _ _ E). apply IH.
Qed.

(** *** The field names *)

Lemma prefix_app (p s : string) :
  String.prefix p s = true -> exists r, s = (p ++ r)%string.
Proof.
  revert s. induction p as [|c p IH]; simpl; intros s H.
  - now exists s.
  - destruct s as [|c' s]; simpl in H; [discriminate|].
    destruct (ascii_dec c c') as [->|]; [|discriminate].
    destruct (IH s H) as (r & ->). now exists r.
Qed.

Lemma split_not_nil (sep : ascii) (s : string) : split sep s <> [].
Proof.
  destruct s as [|c s]; simpl; [discriminate|].
  destruct (Ascii.eqb c sep); [discriminate|].
  destruct (split sep s); discriminate.
Qed.

Lemma split_no_sep (sep : ascii) (s : string) :
  ~ In sep (list_ascii_of_string s) -> split sep s = [s].
Proof.
  induction s as [|c s IH]; simpl; intros H; [reflexivity|].
  destruct (Ascii.eqb c sep) eqn:E.
  - apply Ascii.eqb_eq in E. tauto.
  - rewrite IH by tauto. reflexivity.
Qed.

(** X13: under the guard [key.startswith('status_')] the index [1] of
    [key.split('_')] always exists: the parts are [status] followed by the
    parts of the rest of the name; when that rest holds no underscore it
    is the id part itself. *)
Theorem status_key_id_part (key : string) :
  startswith "status_" key = true ->
  exists rest,
    key = ("status_" ++ rest)%string
    /\ split "_" key = "status" :: split "_" rest
    /\ (2 <= List.length (split "_" key))%nat
    /\ (~ In "_"%char (list_ascii_of_string rest) -> nth 1 (split "_" key) "" = rest).
Proof.
  intros H. apply prefix_app in H. destruct H as (rest & ->). exists rest.
  assert (E : split "_" ("status_" ++ rest) = "status" :: split "_" rest).
  { change ("status_" ++ rest)%string
      with (String "s" (String "t" (String "a" (String "t" (String "u"
             (String "s" (String "_" rest))))))).
    cbn. destruct (split "_" rest) eqn:Es; [now apply split_not_nil in Es|reflexivity]. }
  split; [reflexivity|]. split; [exact E|]. rewrite E. split.
  - pose proof (split_not_nil "_" rest). destruct (split "_" rest); simpl; [congruence|lia].
  - intros Hno. now rewrite split_no_sep.
Qed.

Lemma status_key_id_part_witness :
  exists rest,
    "status_12_x" = ("status_" ++ rest)%string
    /\ split "_" "status_12_x" = "status" :: split "_" rest
    /\ (2 <= List.length (split "_" "status_12_x"))%nat
    /\ (~ In "_"%char (list_ascii_of_string rest)
        -> nth 1 (split "_" "status_12_x") "" = rest).
Proof. apply (status_key_id_part "status_12_x"). reflexivity. Defined.

(** *** The submitted fields *)

Lemma multidict_items_keys (d : list (string * string)) (k v : string) :
  In (k, v) (multidict_items d) -> In k (map fst d).
Proof.
  induction d as [|[k0 v0] d IH]; simpl; [tauto|].
  intros [[= -> ->]|H]; [now left|].
  apply filter_In in H. right. tauto.
Qed.

(** X14: the loop sees every submitted field name exactly once, with the
    value [request.form.get] returns for it: the items hold no name twice,
    and a pair is among them exactly when it is the name's first value. *)
Theorem multidict_items_are_first_values (d : list (string * string)) :
  NoDup (map fst (multidict_items d))
  /\ forall k v, In (k, v) (multidict_items d) <-> multidict_get k d = Some v.
Proof.
  induction d as [|[k0 v0] d [IHnd IH]]; simpl.
  - split; [constructor|]. intros k v. split; [tauto|discriminate].
  - split.
    + constructor; [|now apply NoDup_map_filter].
      intros Hin. apply in_map_iff in Hin. destruct Hin as ([k v] & E & Hkv).
      simpl in E. subst k. apply filter_In in Hkv. destruct Hkv as [_ Hne].
      simpl in Hne. now rewrite String.eqb_refl in Hne.
    + intros k v. rewrite filter_In, IH. simpl.
      destruct (k0 =? k)%string eqn:E.
      * apply String.eqb_eq in E. subst k0. rewrite String.eqb_refl. simpl.
        split; [intros [[= ->]|[_ H]]; [reflexivity|discriminate]|intros [= ->]; now left].
      * rewrite String.eqb_sym, E. simpl. apply String.eqb_neq in E.
        split; [intros [[= -> ->]|[H _]]; [congruence|exact H]|intros H; right; tauto].
Qed.

Lemma multidict_items_are_first_values_witness :
  In ("status_1", "Present")
     (multidict_items [("status_1", "Present"); ("session_date", "2024-03-03");
                       ("status_1", "Absent")]).
Proof.
  apply (proj2 (multidict_items_are_first_values
                  [("status_1", "Present"); ("session_date", "2024-03-03");
                   ("status_1", "Absent")])).
  reflexivity.
Defined.

(** *** The setup page *)





(** X16: the proceed action of [/] writes nothing and goes to the marking
    page exactly when a date is known, from the form or else from the
    session; otherwise it goes back to the setup page with the session as
    it was.  When it goes on and there is a participant, a GET of
    [/attendance] with the session it left renders the marking form for
    that date. *)
Theorem setup_proceed_needs_a_date (int : string -> option Z) (req : request)
  (session : gmap string string) (st : db) :
  method req = POST ->
  multidict_get "action" (form req) = Some "proceed_to_attendance" ->
  let out := setup_page req session st in
  store_of out = st
  /\ (response_of out = redirect ep_mark_attendance_page []
      <-> truthy (multidict_get "session_date" (form req)) = true
          \/ truthy (session !! "session_date") = true)
  /\ (response_of out <> redirect ep_mark_attendance_page [] ->
      response_of out = redirect ep_setup_page [] /\ session_of out = session)
  /\ (response_of out = redirect ep_mark_attendance_page [] ->
      get_all_participants st <> [] ->
      exists d,
        session_of out !! "session_date" = Some d
        /\ response_of (mark_attendance_page int (mk_request GET [] []) (session_of out) st)
           = render_mark_attendance (get_all_participants st) d).
Proof.
  intros Hm Ha out. subst out.
  unfold setup_page, response_of, session_of, store_of. rewrite Hm, Ha. simpl.
  set (session' := match multidict_get "session_date" (form req) with
                   | Some d => if negb (d =? "")%string
                               then <["session_date" := d]> session else session
                   | None => session
                   end).
  assert (Hguard : truthy (session' !! "session_date") = true
                   <-> truthy (multidict_get "session_date" (form req)) = true
                       \/ truthy (session !! "session_date") = true).
  { subst session'. destruct (multidict_get "session_date" (form req)) as [d|]; simpl.
    - destruct (d =? "")%string eqn:Ed; simpl.
      + split; [tauto|intros [H|H]; [discriminate|exact H]].
      + rewrite lookup_insert_eq. simpl. rewrite Ed. simpl. tauto.
    - split; [tauto|intros [H|H]; [discriminate|exact H]]. }
  destruct (truthy (session' !! "session_date")) eqn:Et; simpl.
  - split; [reflexivity|]. split; [split; [intros _; now apply Hguard|reflexivity]|].
    split; [congruence|]. intros _ Hps.
    unfold mark_attendance_page. simpl.
    destruct (session' !! "session_date") as [d|] eqn:Ed; [|discriminate Et].
    exists d. split; [reflexivity|]. simpl in Et. rewrite Et. simpl.
    now destruct (get_all_participants st).
  - split; [reflexivity|]. split.
    + split; [discriminate|]. intros H. apply Hguard in H. discriminate H.
    + split; [|discriminate]. intros _. split; [reflexivity|].
      subst session'. destruct (multidict_get "session_date" (form req)) as [d|]; [|reflexivity].
      destruct (negb (d =? "")%string) eqn:Ed; [|reflexivity].
      rewrite lookup_insert_eq in Et. simpl in Et. congruence.
Qed.

Lemma setup_proceed_needs_a_date_witness :
  let out := setup_page
               (mk_request POST [("action", "proceed_to_attendance")] [])
               ∅ (init_db empty_db) in
  store_of out = init_db empty_db
  /\ response_of out = redirect ep_setup_page [].
Proof.
  intros out.
  destruct (setup_proceed_needs_a_date ascii_int
              (mk_request POST [("action", "proceed_to_attendance")] [])
              ∅ (init_db empty_db) eq_refl eq_refl) as (H1 & _ & H3 & _).
  split; [exact H1|]. apply H3. discriminate.
Defined.

(** X17: what [/] never does: whatever the request, it leaves the
    attendance table alone, changes no session key other than
    [session_date], and changes the store only for a POST whose action is
    [add_participant]. *)
Theorem setup_page_frame (req : request) (session : gmap string string) (st : db) :
  let out := setup_page req session st in
  attendance_records (store_of out) = attendance_records st
  /\ (forall k, k <> "session_date" -> session_of out !! k = session !! k)
  /\ (store_of out <> st ->
      method req = POST /\ multidict_get "action" (form req) = Some "add_participant").
Proof.
  intros out. subst out. unfold setup_page, session_of, store_of.
  destruct (method req); simpl; [repeat split; congruence|].
  assert (Hs : forall k, k <> "session_date" ->
               (match multidict_get "session_date" (form req) with
                | Some d => if negb (d =? "")%string
                            then <["session_date" := d]> session else session
                | None => session
                end : gmap string string) !! k = session !! k).
  { intros k Hk. destruct (multidict_get "session_date" (form req)) as [d|]; [|reflexivity].
    destruct (negb (d =? "")%string); [|reflexivity].
    apply lookup_insert_ne. congruence. }
  destruct (multidict_get "action" (form req)) as [a|]; simpl.
  - destruct (a =? "add_participant")%string eqn:Ea; simpl.
    + apply String.eqb_eq in Ea. subst a. split; [|split; [exact Hs|tauto]].
      destruct (multidict_get "participant_name" (form req)) as [name|]; [|reflexivity].
      destruct (negb (name =? "")%string); [|reflexivity].
      apply add_participant_attendance.
    + destruct (a =? "proceed_to_attendance")%string; simpl.
      * destruct (truthy _); simpl; (split; [reflexivity|split; [exact Hs|congruence]]).
      * split; [reflexivity|split; [exact Hs|congruence]].
  - split; [reflexivity|split; [exact Hs|congruence]].
Qed.

Lemma setup_page_frame_witness :
  method (mk_request POST [("action", "add_participant"); ("participant_name", "Ann")] [])
  = POST
  /\ multidict_get "action" [("action", "add_participant"); ("participant_name", "Ann")]
     = Some "add_participant".
Proof.
  apply (proj2 (proj2 (setup_page_frame
                         (mk_request POST [("action", "add_participant");
                                           ("participant_name", "Ann")] [])
                         ∅ (init_db empty_db)))).
  discriminate.
Defined.

(** *** The marking page *)

(** X18: [/attendance] never changes the participant table, and changes
    the store only when it answers with the redirect to the view page: a
    GET, a request stopped by the entry guard and a POST without a date
    write nothing. *)
Theorem mark_attendance_writes_only_on_submit (int : string -> option Z) (req : request)
  (session : gmap string string) (st : db) :
  let out := mark_attendance_page int req session st in
  participants (store_of out) = participants st
  /\ (method req = GET -> store_of out = st)
  /\ ((forall values, response_of out <> redirect ep_view_attendance_page values) ->
      store_of out = st).
Proof.
  intros out. subst out. unfold mark_attendance_page, response_of, store_of.
  destruct (session !! "session_date") as [sd|]; [|repeat split].
  destruct (negb (truthy (Some sd))); [repeat split|].
  destruct (method req).
  - destruct (get_all_participants st); repeat split.
  - destruct (multidict_get "session_date" (form req)) as [fd|]; [|repeat split; discriminate].
    destruct (negb (truthy (Some fd))); [repeat split; discriminate|]. simpl.
    split; [|split; [discriminate|]].
    + generalize (multidict_items (form req)) as items. intros items. revert st.
      induction items as [|item items IH]; simpl; intros st; [reflexivity|].
      now rewrite IH, mark_status_participants.
    + intros H. exfalso. now apply (H [("session_date_view", fd)]).
Qed.

Lemma mark_attendance_writes_only_on_submit_witness :
  let st := run [OpAdd "Session Tester" None] (init_db empty_db) in
  store_of (mark_attendance_page ascii_int
              (mk_request GET [("status_1", "Present")] [])
              {["session_date" := "2024-03-02"]} st) = st.
Proof.
  intros st.
  apply (proj1 (proj2 (mark_attendance_writes_only_on_submit ascii_int
                         (mk_request GET [("status_1", "Present")] [])
                         {["session_date" := "2024-03-02"]} st))).
  reflexivity.
Defined.

(** *** From the marking form to the report *)


Section MarkOthers.

Variable int : string -> option Z.
Variable session_date : string.
Variable p : Z.



End MarkOthers.




(** *** The administrative route *)



(** * The attendance table as a map from (participant, date) to status *)




